(** * electron-dialog-provider: a shallow embedding of [index.js]

    The module wraps Electron's [dialog.showMessageBox] and
    [dialog.showOpenDialog].  Every function of the source is an effectful
    procedure in continuation-passing style: it talks to the host (Electron's
    [app] and [dialog], Node's [fs], [os] and [path], the logger) and finally
    hands a value to a completion callback.

    The embedding keeps that shape.  A computation is a pair of the events it
    issued, in order, and of its outcome (a returned value or a thrown
    [Error]); callbacks are functions into that monad; the host is a record of
    answers the wrapper cannot influence. *)

From Stdlib Require Import String Ascii List ZArith Bool Lia.
Import ListNotations.
Local Open Scope string_scope.
Local Open Scope list_scope.
Local Open Scope Z_scope.

(** ** Values exchanged with the host *)

(** A JavaScript [Error] object: every value thrown, rejected or passed as the
    first callback argument in this module is one (and so is truthy). *)
Record Error : Type := mkError { errName : string; errMessage : string }.

(** The argument of [dialog.showMessageBox]. *)
Record MessageBoxOptions : Type := mkMessageBoxOptions {
  type : string;
  title : string;
  message : string;
  detail : string;
  buttons : list string;
  cancelId : Z;
  defaultId : Z
}.

(** What [dialog.showMessageBox] resolves with. *)
Record MessageBoxReturnValue : Type := mkMessageBoxReturnValue {
  response : Z;
  checkboxChecked : bool
}.

Record FileFilter : Type := mkFileFilter {
  name : string;
  extensions : list string
}.

(** The argument of [dialog.showOpenDialog]. *)
Record OpenDialogOptions : Type := mkOpenDialogOptions {
  openTitle : string;
  properties : list string;
  defaultPath : string;
  filters : list FileFilter
}.

(** What [dialog.showOpenDialog] resolves with. *)
Record OpenDialogReturnValue : Type := mkOpenDialogReturnValue {
  canceled : bool;
  filePaths : list string
}.

(** The final state of a host promise. *)
Inductive Settled (A : Type) : Type :=
| Resolved (a : A)
| Rejected (e : Error).
Arguments Resolved {A} a.
Arguments Rejected {A} e.

(** The second argument a completion callback of the public interface may
    receive: a message box result or a file path. *)
Inductive Result : Type :=
| RBox (r : MessageBoxReturnValue)
| RPath (p : string).

(** ** Events *)

Inductive LogLevel : Type := Debug | Warn | Err.

(** The context values handed to the logger after the operation name. *)
Inductive LogArg : Type :=
| LStr (s : string)
| LList (l : list string)
| LError (e : Error)
| LBox (r : MessageBoxReturnValue).

(** Everything the wrapper does that can be seen from outside, in the order
    it happens. *)
Inductive Event : Type :=
| Log (level : LogLevel) (operation : string) (context : list LogArg)
| DockBounce (kind : string)                      (* app.dock.bounce(kind) *)
| AppFocus                                        (* app.focus() *)
| AppRelaunch                                     (* app.relaunch() *)
| AppQuit                                         (* app.quit() *)
| ShowMessageBox (req : MessageBoxOptions)        (* dialog.showMessageBox(req) *)
| MessageBoxSettled (s : Settled MessageBoxReturnValue)
| ShowOpenDialog (req : OpenDialogOptions)        (* dialog.showOpenDialog(req) *)
| OpenDialogSettled (s : Settled OpenDialogReturnValue)
| FsAccess (path : string) (mode : Z)             (* fs.access(path, mode, cb) *)
| FsAccessDone (error : option Error)
| CallbackInvoked (error : option Error) (result : option Result)
                                                  (* the caller's callback runs *)
| UnhandledRejection (e : Error)                  (* a promise chain ends rejected *)
| UncaughtException (e : Error).                  (* a Node callback throws *)

Definition Trace : Type := list Event.

(** ** The effect monad: a trace and an outcome *)

Inductive Outcome (A : Type) : Type :=
| Returns (a : A)
| Throws (e : Error).
Arguments Returns {A} a.
Arguments Throws {A} e.

Definition M (A : Type) : Type := (Trace * Outcome A)%type.

Definition ret {A} (a : A) : M A := ([], Returns a).

Definition bind {A B} (m : M A) (k : A -> M B) : M B :=
  match m with
  | (t, Returns a) => let (t', o) := k a in (t ++ t', o)
  | (t, Throws e) => (t, Throws e)
  end.

Definition emit (ev : Event) : M unit := ([ev], Returns tt).

Definition throw {A} (e : Error) : M A := ([], Throws e).

(** [try { m } catch (e) { handler(e) }] *)
Definition try_catch {A} (m : M A) (handler : Error -> M A) : M A :=
  match m with
  | (t, Returns a) => (t, Returns a)
  | (t, Throws e) => let (t', o) := handler e in (t ++ t', o)
  end.

Declare Scope js_scope.
Delimit Scope js_scope with js.
Notation "x <- m ;; k" := (bind m (fun x => k))
  (at level 61, m at next level, right associativity) : js_scope.
Notation "m ;; k" := (bind m (fun _ => k))
  (at level 61, right associativity) : js_scope.
Local Open Scope js_scope.

Definition trace {A} (m : M A) : Trace := fst m.
Definition outcome {A} (m : M A) : Outcome A := snd m.

(** A completion callback [(error, result) => ...]: [None] as the error is
    [null], [None] as the result is an argument left out ([undefined]). *)
Definition Callback (A : Type) : Type := option Error -> option A -> M unit.

(** The default of every callback parameter, [() => {}]. *)
Definition noop {A} : Callback A := fun _ _ => ret tt.

(** A default parameter value [x = d]: used when the argument is [undefined]. *)
Definition orDefault {A} (d : A) (x : option A) : A :=
  match x with Some v => v | None => d end.

(** A host promise: how it settles, and the event that marks the moment. *)
Record Promise (A : Type) : Type := mkPromise {
  settles : Settled A;
  settledEvent : Event
}.
Arguments mkPromise {A}.
Arguments settles {A}.
Arguments settledEvent {A}.

(** Code that runs from the promise job queue: an exception escaping it is an
    unhandled rejection and never reaches the code that built the chain. *)
Definition promiseJob (m : M unit) : M unit :=
  match m with
  | (t, Returns u) => (t, Returns u)
  | (t, Throws e) => (t ++ [UnhandledRejection e], Returns tt)
  end.

(** [p.then(onResolved).catch(onRejected)].  [onRejected] receives the
    rejection of [p] and also whatever [onResolved] throws.  In the source each
    chain is the last statement of its function, so nothing of the caller runs
    between the request and the handlers. *)
Definition then_catch {A} (p : Promise A)
    (onResolved : A -> M unit) (onRejected : Error -> M unit) : M unit :=
  promiseJob
    (emit (settledEvent p) ;;
     match settles p with
     | Resolved a => try_catch (onResolved a) onRejected
     | Rejected e => onRejected e
     end).

(** Code that Node calls back from the event loop: an exception escaping it
    is an uncaught exception. *)
Definition nodeCallback (m : M unit) : M unit :=
  match m with
  | (t, Returns u) => (t, Returns u)
  | (t, Throws e) => (t ++ [UncaughtException e], Returns tt)
  end.

(** ** The host *)

(** Everything the module reads from its environment.  [globalName] is the
    binding, if any, of the free identifier [name] in the global scope: the
    source uses [name] without declaring it. *)
Record Host : Type := mkHost {
  appName : string;                                   (* app.name *)
  isMacOS : bool;                                     (* platformTools.isMacOS *)
  EOL : string;                                       (* os.EOL *)
  globalName : option string;
  getPath : string -> Outcome string;                 (* app.getPath *)
  normalize : string -> string;                       (* path.normalize *)
  showMessageBoxAnswer : MessageBoxOptions -> Settled MessageBoxReturnValue;
  showOpenDialogAnswer : OpenDialogOptions -> Settled OpenDialogReturnValue;
  accessAnswer : string -> option Error               (* fs.access, mode F_OK *)
}.

(** The caller's completion callback, as far as the wrapper can tell: it is
    invoked with two arguments and either returns or throws. *)
Record Caller : Type := mkCaller {
  throwsOn : option Error -> option Result -> option Error
}.

Definition callerCallback {A} (inj : A -> Result) (c : Caller) : Callback A :=
  fun error result =>
    emit (CallbackInvoked error (option_map inj result)) ;;
    match throwsOn c error (option_map inj result) with
    | Some e => throw e
    | None => ret tt
    end.

(** A caller whose callback always returns. *)
Definition quietCaller : Caller := mkCaller (fun _ _ => None).

(** [fs.constants.F_OK] *)
Definition F_OK : Z := 0.

(** Node refuses a path that holds a NUL byte: [fs.access] throws a
    [TypeError] at once instead of calling back.  [ERR_INVALID_ARG_VALUE]
    stands for it; Node's message goes on to quote the path. *)
Fixpoint hasNullByte (p : string) : bool :=
  match p with
  | EmptyString => false
  | String c rest => Ascii.eqb c zero || hasNullByte rest
  end.

Definition ERR_INVALID_ARG_VALUE : Error :=
  mkError "TypeError"
    "The argument 'path' must be a string, Uint8Array, or URL without null bytes.".

(** ** Node's [path.normalize], POSIX flavour

    [index.js] calls [path.normalize] and never looks inside it, so the host
    record carries it as a function.  This module writes down what Node
    documents for POSIX paths, to evaluate the wrapper on concrete paths:
    empty and [.] segments are dropped, a [..] segment removes the segment
    before it (or stays, in a relative path with nothing left to remove), a
    trailing separator is kept and the empty result is [.]. *)
Module NodePath.

Definition sep : ascii := "/"%char.

(** The segments between separators: "a//b" has three, the middle one
    empty. *)
Fixpoint split (s : string) : list string :=
  match s with
  | EmptyString => [EmptyString]
  | String c rest =>
      if Ascii.eqb c sep then EmptyString :: split rest
      else match split rest with
           | [] => [String c EmptyString]
           | seg :: segs => String c seg :: segs
           end
  end.

(** One segment against the stack of the segments kept so far (last first). *)
Definition step (allowAboveRoot : bool) (stack : list string) (seg : string)
  : list string :=
  if String.eqb seg EmptyString || String.eqb seg "." then stack
  else if String.eqb seg ".." then
    match stack with
    | top :: below =>
        if String.eqb top ".."
        then (if allowAboveRoot then ".." :: stack else stack)
        else below
    | [] => if allowAboveRoot then [".."] else []
    end
  else seg :: stack.

Definition normalizeString (segments : list string) (allowAboveRoot : bool)
  : string :=
  String.concat "/" (rev (fold_left (step allowAboveRoot) segments [])).

Definition startsWithSep (p : string) : bool :=
  match p with String c _ => Ascii.eqb c sep | EmptyString => false end.

Fixpoint endsWithSep (p : string) : bool :=
  match p with
  | EmptyString => false
  | String c EmptyString => Ascii.eqb c sep
  | String _ rest => endsWithSep rest
  end.

(** Modelled from the spec: [path.normalize] is Node's and not part of this
    repository; the spec has it resolve the [.] and [..] segments and the
    separator style, and this follows Node's documentation of the POSIX
    variant. *)
Definition normalize (p : string) : string :=
  if String.eqb p EmptyString then "."
  else
    let isAbsolute := startsWithSep p in
    let trailingSeparator := endsWithSep p in
    let body := normalizeString (split p) (negb isAbsolute) in
    if String.eqb body EmptyString then
      (if isAbsolute then "/" else if trailingSeparator then "./" else ".")
    else
      let body := if trailingSeparator then (body ++ "/")%string else body in
      if isAbsolute then ("/" ++ body)%string else body.

End NodePath.

(** ** The module [index.js] *)

Section DialogProvider.

Variable host : Host.

(** [const appProductName = app.name] *)
Definition appProductName : string := appName host.

Definition log (level : LogLevel) (operation : string) (context : list LogArg)
  : M unit :=
  emit (Log level operation context).

(** [dialog.showMessageBox(options)]: the request is issued and a promise
    comes back. *)
Definition dialog_showMessageBox (options : MessageBoxOptions)
  : M (Promise MessageBoxReturnValue) :=
  emit (ShowMessageBox options) ;;
  ret (mkPromise (showMessageBoxAnswer host options)
                 (MessageBoxSettled (showMessageBoxAnswer host options))).

(** [dialog.showOpenDialog(options)] *)
Definition dialog_showOpenDialog (options : OpenDialogOptions)
  : M (Promise OpenDialogReturnValue) :=
  emit (ShowOpenDialog options) ;;
  ret (mkPromise (showOpenDialogAnswer host options)
                 (OpenDialogSettled (showOpenDialogAnswer host options))).

(** [fs.access(path, mode, callback)]: the call validates the path and throws
    on a NUL byte; otherwise the probe's answer comes back through the
    callback, from the event loop. *)
Definition fs_access (path : string) (mode : Z) (callback : option Error -> M unit)
  : M unit :=
  emit (FsAccess path mode) ;;
  if hasNullByte path then throw ERR_INVALID_ARG_VALUE
  else nodeCallback (emit (FsAccessDone (accessAnswer host path)) ;;
                     callback (accessAnswer host path)).

(** [app.getPath(name)]: Electron throws on a name it does not know. *)
Definition app_getPath (name : string) : M string := ([], getPath host name).

(** Reading the free identifier [name]: a [ReferenceError] when nothing in
    scope binds it. *)
Definition ReferenceError_name : Error :=
  mkError "ReferenceError" "name is not defined".

Definition read_name : M string :=
  match globalName host with
  | Some v => ret v
  | None => throw ReferenceError_name
  end.

(** [result.response] on an [undefined] result. *)
Definition TypeError_response : Error :=
  mkError "TypeError" "Cannot read properties of undefined (reading 'response')".

(** [createMessageDialog], lines 49-74. *)
Definition createMessageDialog
    (title message : option string) (buttonList : option (list string))
    (type : option string) (callback : option (Callback MessageBoxReturnValue))
  : M unit :=
  let title := orDefault appProductName title in
  let message := orDefault title message in
  let buttonList := orDefault [ "Dismiss" ] buttonList in
  let type := orDefault "info" type in
  let callback := orDefault noop callback in
  log Debug "createMessageDialog"
      [LStr "title:"; LStr title; LStr "message:"; LStr message;
       LStr "buttonList:"; LList buttonList; LStr "type:"; LStr type] ;;
  p <- dialog_showMessageBox
         {| type := type;
            title := title;
            message := title;
            detail := message;
            buttons := buttonList;
            cancelId := 0;
            defaultId := 0 |} ;;
  then_catch p
    (fun result =>
       log Debug "createMessageDialog" [LStr "result:"; LBox result] ;;
       callback None (Some result))
    (fun error =>
       log Err "createMessageDialog" [LError error] ;;
       callback (Some error) None).

(** [checkFileExists], lines 85-102. *)
Definition checkFileExists (filePath : string)
    (callback : option (option Error -> M unit)) : M unit :=
  let callback := orDefault (fun _ => ret tt) callback in
  log Debug "checkFileExists" [] ;;
  fs_access filePath F_OK
    (fun error =>
       match error with
       | Some e =>
           log Err "checkFileExists" [LError e] ;;
           callback (Some e)
       | None => callback None
       end).

(** [showInformation], lines 114-119. *)
Definition showInformation (title message : option string)
    (callback : option (Callback MessageBoxReturnValue)) : M unit :=
  let callback := orDefault noop callback in
  log Debug "showInformation" [] ;;
  createMessageDialog title message (Some [ "Dismiss" ]) (Some "info")
                      (Some callback).

(** [showWarning], lines 129-134. *)
Definition showWarning (message : option string)
    (callback : option (Callback MessageBoxReturnValue)) : M unit :=
  let callback := orDefault noop callback in
  log Debug "showWarning" [] ;;
  createMessageDialog (Some "Warning") message (Some [ "Dismiss" ])
                      (Some "warning") (Some callback).

(** [showConfirmation], lines 145-153. *)
Definition showConfirmation (title message : option string)
    (callback : option (Callback MessageBoxReturnValue)) : M unit :=
  let callback := orDefault noop callback in
  log Debug "showConfirmation" [] ;;
  emit AppFocus ;;
  createMessageDialog title message (Some [ "No"; "Yes" ]) (Some "question")
                      (Some callback).

(** [showError], lines 163-198. *)
Definition showError (message : option string)
    (callback : option (Callback MessageBoxReturnValue)) : M unit :=
  let callback := orDefault noop callback in
  log Debug "showError" [] ;;
  (if isMacOS host then emit (DockBounce "critical") else ret tt) ;;
  emit AppFocus ;;
  createMessageDialog (Some "Error") message
    (Some [ "Dismiss"; "Restart"; "Quit" ]) (Some "error")
    (Some (fun error result =>
       match error with
       | Some e =>
           log Err "showError" [LError e] ;;
           callback (Some e) None
       | None =>
           match result with
           | None => throw TypeError_response
           | Some r =>
               (if response r =? 1 then
                  emit AppRelaunch ;;
                  emit AppQuit
                else if response r =? 2 then
                  emit AppQuit
                else ret tt) ;;
               callback None (Some r)
           end
       end)).

(** The object literal handed to [dialog.showOpenDialog], lines 217-222. *)
Definition openDialogOptions (dialogTitle : string)
    (fileExtensionList : list string) (initialFolder : string)
  : OpenDialogOptions :=
  {| openTitle := dialogTitle;
     properties := [ "openFile"; "showHiddenFiles"; "treatPackageAsDirectory" ];
     defaultPath := initialFolder;
     filters := [ {| name := "Filter"; extensions := fileExtensionList |} ] |}.

(** The default of [openFile]'s third parameter,
    [initialFolder = app.getPath(name)], evaluated only when the argument is
    left out. *)
Definition initialFolderParam (initialFolder : option string) : M string :=
  match initialFolder with
  | Some folder => ret folder
  | None => name <- read_name ;; app_getPath name
  end.

(** [openFile], lines 211-260. *)
Definition openFile (dialogTitle : option string)
    (fileExtensionList : option (list string)) (initialFolder : option string)
    (callback : option (Callback string)) : M unit :=
  let dialogTitle := orDefault appProductName dialogTitle in
  let fileExtensionList := orDefault [ "*" ] fileExtensionList in
  initialFolder <- initialFolderParam initialFolder ;;
  let callback := orDefault noop callback in
  log Debug "openFile" [] ;;
  p <- dialog_showOpenDialog
         (openDialogOptions dialogTitle fileExtensionList initialFolder) ;;
  then_catch p
    (fun result =>
       let filePathList := filePaths result in
       if (length filePathList =? 0)%nat then
         log Warn "openFile" [LStr "file selection empty"] ;;
         callback (Some (mkError "Error" "file selection empty")) None
       else
         let filePath := normalize host (nth 0 filePathList EmptyString) in
         checkFileExists filePath
           (Some (fun error =>
              match error with
              | Some e =>
                  log Warn "openFile" [LStr "checkFileExists"; LError e] ;;
                  showWarning (Some ("File not found." ++ EOL host)%string)
                              (Some (fun _ _ => callback (Some e) None))
              | None => callback None (Some filePath)
              end)))
    (fun error =>
       log Err "openFile" [LError error] ;;
       callback (Some error) None).

End DialogProvider.

(** ** Reading a trace *)

Definition isAppRelaunch (ev : Event) : bool :=
  match ev with AppRelaunch => true | _ => false end.
Definition isAppQuit (ev : Event) : bool :=
  match ev with AppQuit => true | _ => false end.
Definition isAppFocus (ev : Event) : bool :=
  match ev with AppFocus => true | _ => false end.
Definition isShowMessageBox (ev : Event) : bool :=
  match ev with ShowMessageBox _ => true | _ => false end.
Definition isMessageBoxSettled (ev : Event) : bool :=
  match ev with MessageBoxSettled _ => true | _ => false end.
Definition isShowOpenDialog (ev : Event) : bool :=
  match ev with ShowOpenDialog _ => true | _ => false end.

(** How often an event of some kind occurs. *)
Definition occurrences (kind : Event -> bool) (t : Trace) : nat :=
  length (filter kind t).

(** The trace restricted to the events of some kinds, order kept. *)
Definition restrict (kinds : list (Event -> bool)) (t : Trace) : Trace :=
  filter (fun ev => existsb (fun kind => kind ev) kinds) t.

(** The message box requests of a trace, in order. *)
Fixpoint messageBoxes (t : Trace) : list MessageBoxOptions :=
  match t with
  | [] => []
  | ShowMessageBox req :: t' => req :: messageBoxes t'
  | _ :: t' => messageBoxes t'
  end.

(** The picker requests of a trace. *)
Fixpoint openDialogs (t : Trace) : list OpenDialogOptions :=
  match t with
  | [] => []
  | ShowOpenDialog req :: t' => req :: openDialogs t'
  | _ :: t' => openDialogs t'
  end.

(** The paths probed with [fs.access]. *)
Fixpoint probes (t : Trace) : list string :=
  match t with
  | [] => []
  | FsAccess p _ :: t' => p :: probes t'
  | _ :: t' => probes t'
  end.

(** The argument lists the caller's callback was invoked with. *)
Fixpoint callbackCalls (t : Trace) : list (option Error * option Result) :=
  match t with
  | [] => []
  | CallbackInvoked e r :: t' => (e, r) :: callbackCalls t'
  | _ :: t' => callbackCalls t'
  end.


(** ** Callers and example hosts *)

(** The callback argument of a public operation: left out, or the callback of
    some caller. *)
Definition callbackArg {A} (inj : A -> Result) (caller : option Caller)
  : option (Callback A) :=
  option_map (callerCallback inj) caller.

(** A host on Linux with Node's POSIX paths and no global [name], as in
    Electron's main process.  The message box is closed with button [index],
    the picker returns [picked], and [fs.access] fails on [missing]. *)
Definition mainProcessHost (index : Z) (picked : list string)
    (missing : string -> option Error) : Host :=
  mkHost "MyApp" false (String "010"%char EmptyString) None
    (fun _ => Throws (mkError "Error" "Failed to get path"))
    NodePath.normalize
    (fun req =>
       if 0 <=? index then
         if index <? Z.of_nat (length (buttons req))
         then Resolved (mkMessageBoxReturnValue index false)
         else Rejected (mkError "Error" "no such button")
       else Rejected (mkError "Error" "no such button"))
    (fun _ => Resolved (mkOpenDialogReturnValue (Nat.eqb (length picked) 0) picked))
    missing.

Definition ENOENT : Error := mkError "Error" "ENOENT: no such file or directory".

(** The error [openFile] makes up when nothing was picked, line 231. *)
Definition emptySelectionError : Error := mkError "Error" "file selection empty".

(** What follows the first event of some kind. *)
Fixpoint afterFirst (kind : Event -> bool) (t : Trace) : Trace :=
  match t with
  | [] => []
  | ev :: t' => if kind ev then t' else afterFirst kind t'
  end.

(** ** The four message dialogs as one family *)

(** A call of one of the four public message-dialog operations, with its
    arguments ([None] for an argument left out). *)
Inductive MessageOperation : Type :=
| ShowInformation (title message : option string)
| ShowWarning (message : option string)
| ShowConfirmation (title message : option string)
| ShowError (message : option string).

Definition perform (host : Host) (op : MessageOperation)
    (callback : option (Callback MessageBoxReturnValue)) : M unit :=
  match op with
  | ShowInformation title message => showInformation host title message callback
  | ShowWarning message => showWarning host message callback
  | ShowConfirmation title message => showConfirmation host title message callback
  | ShowError message => showError host message callback
  end.

(** The button labels each operation supplies, in order. *)
Definition suppliedButtons (op : MessageOperation) : list string :=
  match op with
  | ShowInformation _ _ => [ "Dismiss" ]
  | ShowWarning _ => [ "Dismiss" ]
  | ShowConfirmation _ _ => [ "No"; "Yes" ]
  | ShowError _ => [ "Dismiss"; "Restart"; "Quit" ]
  end.

(** The title of the dialog an operation shows. *)
Definition dialogTitleOf (host : Host) (op : MessageOperation) : string :=
  match op with
  | ShowInformation title _ => orDefault (appName host) title
  | ShowWarning _ => "Warning"
  | ShowConfirmation title _ => orDefault (appName host) title
  | ShowError _ => "Error"
  end.

(** The message argument of a call. *)
Definition messageArgument (op : MessageOperation) : option string :=
  match op with
  | ShowInformation _ message => message
  | ShowWarning message => message
  | ShowConfirmation _ message => message
  | ShowError message => message
  end.

(** The type of the dialog an operation shows. *)
Definition dialogTypeOf (op : MessageOperation) : string :=
  match op with
  | ShowInformation _ _ => "info"
  | ShowWarning _ => "warning"
  | ShowConfirmation _ _ => "question"
  | ShowError _ => "error"
  end.

(** The message box request an operation hands to the host: what the host
    is asked, and so what its answer is an answer to. *)
Definition requestOf (host : Host) (op : MessageOperation) : MessageBoxOptions :=
  {| type := dialogTypeOf op;
     title := dialogTitleOf host op;
     message := dialogTitleOf host op;
     detail := orDefault (dialogTitleOf host op) (messageArgument op);
     buttons := suppliedButtons op;
     cancelId := 0;
     defaultId := 0 |}.

(** The request of the warning [openFile] shows after a failed probe. *)
Definition warningRequest (host : Host) : MessageBoxOptions :=
  requestOf host (ShowWarning (Some ("File not found." ++ EOL host)%string)).

(** The picker request of an [openFile] call whose initial folder is
    [folder]. *)
Definition pickerRequest (host : Host) (dialogTitle : option string)
    (fileExtensionList : option (list string)) (folder : string)
  : OpenDialogOptions :=
  openDialogOptions (orDefault (appName host) dialogTitle)
                    (orDefault [ "*" ] fileExtensionList) folder.

(** The initial folder of a call, on a host: the argument when one is
    passed; otherwise what [app.getPath] returns for the value the global
    [name] is bound to, where there is one. *)
Definition folderOf (host : Host) (initialFolder : option string) (folder : string)
  : Prop :=
  initialFolder = Some folder \/
  (initialFolder = None /\
   exists bound, globalName host = Some bound /\
                 getPath host bound = Returns folder).

(** ** More ways to read a trace *)

Definition isDockBounce (ev : Event) : bool :=
  match ev with DockBounce _ => true | _ => false end.

(** The four things the wrapper can do to the application itself. *)
Definition appActions : list (Event -> bool) :=
  [isDockBounce; isAppFocus; isAppRelaunch; isAppQuit].

(** The [fs.access] modes of a trace. *)
Fixpoint probeModes (t : Trace) : list Z :=
  match t with
  | [] => []
  | FsAccess _ mode :: t' => mode :: probeModes t'
  | _ :: t' => probeModes t'
  end.



(** The errors logged at error level, each with the operation that logged
    it. *)
Fixpoint loggedErrors (t : Trace) : list (string * Error) :=
  match t with
  | [] => []
  | Log Err operation [LError e] :: t' => (operation, e) :: loggedErrors t'
  | _ :: t' => loggedErrors t'
  end.

(** The rejections nobody handled and the exceptions nobody caught. *)
Fixpoint escaped (t : Trace) : list Event :=
  match t with
  | [] => []
  | UnhandledRejection e :: t' => UnhandledRejection e :: escaped t'
  | UncaughtException e :: t' => UncaughtException e :: escaped t'
  | _ :: t' => escaped t'
  end.

(** A caller whose callback returns whatever it is invoked with. *)
Definition returnsAlways (c : Caller) : Prop :=
  forall error result, throwsOn c error result = None.

(** A caller whose callback throws [thrown] on every invocation. *)
Definition throwingCaller (thrown : Error) : Caller :=
  mkCaller (fun _ _ => Some thrown).


(** A host like [mainProcessHost] whose dialogs both fail with [failure]. *)
Definition failingHost (failure : Error) (macOS : bool) : Host :=
  mkHost "MyApp" macOS (String "010"%char EmptyString) None
    (fun _ => Throws (mkError "Error" "Failed to get path"))
    NodePath.normalize
    (fun _ => Rejected failure)
    (fun _ => Rejected failure)
    (fun _ => None).

(** A host in whose scope [name] is bound to [bound], with the directories
    [app.getPath] knows. *)
Definition rendererLikeHost (bound : string) : Host :=
  mkHost "MyApp" false (String "010"%char EmptyString) (Some bound)
    (fun key => if String.eqb key "home" then Returns "/home/me"
                else Throws (mkError "Error" "Failed to get path"))
    NodePath.normalize
    (fun _ => Resolved (mkMessageBoxReturnValue 0 false))
    (fun _ => Resolved (mkOpenDialogReturnValue true []))
    (fun _ => None).


(** A host that answers every message box with the index [-1]. *)
Definition offListHost : Host :=
  mkHost "MyApp" false (String "010"%char EmptyString) None
    (fun _ => Throws (mkError "Error" "Failed to get path"))
    NodePath.normalize
    (fun _ => Resolved (mkMessageBoxReturnValue (-1) true))
    (fun _ => Resolved (mkOpenDialogReturnValue true []))
    (fun _ => None).

(** ** Proof tools *)

Ltac unfold_module :=
  unfold openFile, showError, showConfirmation, showWarning, showInformation,
    checkFileExists, createMessageDialog, initialFolderParam, read_name,
    app_getPath, fs_access, dialog_showMessageBox, dialog_showOpenDialog,
    then_catch, log, callbackArg, callerCallback, noop, orDefault in *.

(** Splits on the first host answer, caller reaction or branch condition the
    goal is stuck on. *)
Ltac split_stuck :=
  match goal with
  | |- context [match showMessageBoxAnswer ?h ?q with _ => _ end] =>
      destruct (showMessageBoxAnswer h q) eqn:?
  | |- context [match showOpenDialogAnswer ?h ?q with _ => _ end] =>
      destruct (showOpenDialogAnswer h q) eqn:?
  | |- context [match accessAnswer ?h ?p with _ => _ end] =>
      destruct (accessAnswer h p) eqn:?
  | |- context [match throwsOn ?c ?e ?r with _ => _ end] =>
      destruct (throwsOn c e r) eqn:?
  | |- context [if isMacOS ?h then _ else _] => destruct (isMacOS h) eqn:?
  | |- context [if hasNullByte ?p then _ else _] =>
      destruct (hasNullByte p) eqn:?
  | |- context [if ?x =? ?y then _ else _] => destruct (x =? y) eqn:?
  end.

Ltac run := unfold_module; cbn; repeat (split_stuck; cbn).

(** Splits on what [openFile] is stuck on before the picker answers: the
    parameters left out, the global [name], [app.getPath], and then the
    answers of the host. *)
Ltac split_open :=
  match goal with
  | |- context [match globalName ?h with _ => _ end] =>
      destruct (globalName h) eqn:?
  | |- context [match getPath ?h ?n with _ => _ end] =>
      destruct (getPath h n) eqn:?
  | |- context [filePaths ?a] =>
      is_var a; destruct a as [? [|? ?]]
  | _ => split_stuck
  end.

Ltac run_open := unfold_module; cbn; repeat (split_open; cbn).

Ltac scan H :=
  repeat (destruct H as [H|H]; try discriminate H); try contradiction.

(** Runs the module on what the hypotheses say of the host: each fact
    [lhs = rhs] about an answer is used where the run asks for [lhs]. *)
Ltac unfold_requests :=
  unfold warningRequest, pickerRequest, requestOf, perform, dialogTypeOf,
    dialogTitleOf, messageArgument, suppliedButtons, openDialogOptions,
    appProductName, orDefault in *.

Ltac use_premises :=
  repeat match goal with
         | H : ?lhs = _ |- context [?lhs] => rewrite H; cbn
         end.

Ltac run_with_premises :=
  unfold perform in *; unfold_module; unfold_requests; cbn in *; use_premises;
  repeat (split_stuck; cbn; use_premises).

(** The two ways a call of [openFile] comes to its initial folder. *)
Ltac split_folder H :=
  destruct H as [-> | (-> & ? & ? & ?)].


(** ** Node's documented examples for [path.normalize] *)

Example normalize_doc_example :
  NodePath.normalize "/foo/bar//baz/asdf/quux/.." = "/foo/bar/baz/asdf".
Proof. reflexivity. Qed.

Example normalize_keeps_leading_parents :
  NodePath.normalize "../../a/./b//c/.." = "../../a/b".
Proof. reflexivity. Qed.

Example normalize_stops_at_root :
  NodePath.normalize "/a/b/../../../c/" = "/c/".
Proof. reflexivity. Qed.

Example normalize_empty : NodePath.normalize EmptyString = ".".
Proof. reflexivity. Qed.

Example normalize_spec_path : NodePath.normalize "./a/../b.txt" = "b.txt".
Proof. reflexivity. Qed.

(** ** showError *)

(** C1.  Whenever the host resolves the error dialog that [showError]
    requests with button index [1], the wrapper, once the dialog has
    resolved, asks the host for exactly one relaunch and then exactly one
    quit; with index [2] for exactly one quit and no relaunch; with index [0]
    for neither.  This holds whether or not a callback was passed and whether
    or not it throws. *)
Theorem showError_click_actions :
  forall (host : Host) (message : option string) (caller : option Caller)
         (r : MessageBoxReturnValue),
    showMessageBoxAnswer host (requestOf host (ShowError message)) = Resolved r ->
    let t := trace (showError host message (callbackArg RBox caller)) in
    (response r = 1 ->
       restrict [isMessageBoxSettled; isAppRelaunch; isAppQuit] t
       = [MessageBoxSettled (Resolved r); AppRelaunch; AppQuit] /\
       occurrences isAppRelaunch t = 1%nat /\ occurrences isAppQuit t = 1%nat) /\
    (response r = 2 ->
       restrict [isMessageBoxSettled; isAppRelaunch; isAppQuit] t
       = [MessageBoxSettled (Resolved r); AppQuit] /\
       occurrences isAppRelaunch t = 0%nat /\ occurrences isAppQuit t = 1%nat) /\
    (response r = 0 ->
       restrict [isMessageBoxSettled; isAppRelaunch; isAppQuit] t
       = [MessageBoxSettled (Resolved r)] /\
       occurrences isAppRelaunch t = 0%nat /\ occurrences isAppQuit t = 0%nat).
Proof.
  intros host message caller r Hanswer t. subst t.
  destruct caller as [c|]; run_with_premises.
  all: repeat split; intros; try reflexivity; lia.
Qed.

Lemma showError_click_actions_witness :
  restrict [isMessageBoxSettled; isAppRelaunch; isAppQuit]
    (trace (showError (mainProcessHost 1 [] (fun _ => None)) (Some "boom")
                      (callbackArg RBox (Some quietCaller))))
  = [MessageBoxSettled (Resolved (mkMessageBoxReturnValue 1 false));
     AppRelaunch; AppQuit].
Proof.
  apply (showError_click_actions (mainProcessHost 1 [] (fun _ => None))
           (Some "boom") (Some quietCaller) (mkMessageBoxReturnValue 1 false)).
  - reflexivity.
  - reflexivity.
Defined.

(** C2, as the claim has it, fails.  The host closes the error dialog with
    "Restart"; the quit is issued, and the caller's callback is invoked after
    it: [app.quit()] returns and line 196 runs. *)
Lemma showError_callback_follows_quit :
  let t := trace (showError (mainProcessHost 1 [] (fun _ => None)) (Some "boom")
                            (callbackArg RBox (Some quietCaller))) in
  In (MessageBoxSettled (Resolved (mkMessageBoxReturnValue 1 false))) t /\
  callbackCalls (afterFirst isAppQuit t)
  = [(None, Some (RBox (mkMessageBoxReturnValue 1 false)))].
Proof. cbn. split; [tauto | reflexivity]. Qed.

(** C2, amended.  [showError] relaunches or quits only after the host has
    settled the dialog it requested.  Restricted to the request, its
    settlement, relaunches and quits, the run reads: request, settlement,
    then relaunch and quit for index [1], quit for index [2], and nothing
    more for any other index or when the host rejects the dialog.  After
    index [1] or [2] the very next thing the wrapper does after the quit is
    to invoke the callback it was passed, with [(null, result)]. *)
Theorem showError_terminal_actions_after_click :
  forall (host : Host) (message : option string) (caller : option Caller),
    let t := trace (showError host message (callbackArg RBox caller)) in
    let req := requestOf host (ShowError message) in
    let shown := restrict [isShowMessageBox; isMessageBoxSettled;
                           isAppRelaunch; isAppQuit] t in
    (forall r, showMessageBoxAnswer host req = Resolved r ->
       (response r = 1 ->
          shown = [ShowMessageBox req; MessageBoxSettled (Resolved r);
                   AppRelaunch; AppQuit]) /\
       (response r = 2 ->
          shown = [ShowMessageBox req; MessageBoxSettled (Resolved r); AppQuit]) /\
       (response r <> 1 -> response r <> 2 ->
          shown = [ShowMessageBox req; MessageBoxSettled (Resolved r)]) /\
       (response r = 1 \/ response r = 2 ->
        forall c, caller = Some c ->
          hd_error (afterFirst isAppQuit t)
          = Some (CallbackInvoked None (Some (RBox r))))) /\
    (forall e, showMessageBoxAnswer host req = Rejected e ->
       shown = [ShowMessageBox req; MessageBoxSettled (Rejected e)]).
Proof.
  intros host message caller t req shown. subst t req shown. split.
  - intros r Hanswer.
    destruct caller as [c|]; run_with_premises.
    all: repeat split; intros; try reflexivity; try discriminate; lia.
  - intros e Hanswer.
    destruct caller as [c|]; run_with_premises; reflexivity.
Qed.

Lemma showError_terminal_actions_after_click_witness :
  hd_error (afterFirst isAppQuit
    (trace (showError (mainProcessHost 2 [] (fun _ => None)) None
                      (callbackArg RBox (Some quietCaller)))))
  = Some (CallbackInvoked None (Some (RBox (mkMessageBoxReturnValue 2 false)))).
Proof.
  apply (showError_terminal_actions_after_click
           (mainProcessHost 2 [] (fun _ => None)) None (Some quietCaller))
    with (c := quietCaller).
  - reflexivity.
  - right. reflexivity.
  - reflexivity.
Defined.

(** ** openFile *)








(** ** The four message dialogs *)






(** C9.  [showConfirmation], whatever its arguments, asks for the focus once
    and then issues its one message box request, with the buttons "No" (index
    0) and "Yes" (index 1) and type "question". *)
Theorem showConfirmation_focus_then_dialog :
  forall (host : Host) (title message : option string) (caller : option Caller),
    let t := trace (showConfirmation host title message
                                     (callbackArg RBox caller)) in
    exists req,
      restrict [isAppFocus; isShowMessageBox] t = [AppFocus; ShowMessageBox req] /\
      buttons req = [ "No"; "Yes" ] /\
      nth_error (buttons req) 0 = Some "No" /\
      nth_error (buttons req) 1 = Some "Yes" /\
      type req = "question".
Proof.
  intros host title message caller t. subst t.
  destruct caller; run; eexists; repeat split.
Qed.

(** C10.  The one request each of the four operations issues has its
    [message] field equal to its [title] field, the dialog title, and carries
    the message text in [detail]: the message argument when one was passed,
    the title otherwise. *)
Theorem message_dialog_message_is_title :
  forall (host : Host) (op : MessageOperation) (caller : option Caller),
    let t := trace (perform host op (callbackArg RBox caller)) in
    exists req,
      messageBoxes t = [req] /\
      title req = dialogTitleOf host op /\
      message req = dialogTitleOf host op /\
      detail req = orDefault (dialogTitleOf host op) (messageArgument op) /\
      (forall text, messageArgument op = Some text -> detail req = text).
Proof.
  intros host op caller t. subst t.
  destruct op, caller; unfold perform; run; eexists; repeat split;
    cbn; intros text ->; reflexivity.
Qed.

(** ** openFile's defaults *)

(** C8 fails on the code.  With every optional argument left out, in a scope
    where nothing binds [name] (Electron's main process, where the module
    runs), evaluating the default [app.getPath(name)] throws a
    [ReferenceError] before anything else happens: no picker is requested and
    no callback runs. *)
Theorem openFile_defaults_throw :
  let run := openFile (mainProcessHost 0 ["/tmp/a.txt"] (fun _ => None))
                      None None None (callbackArg RPath (Some quietCaller)) in
  outcome run = Throws ReferenceError_name /\
  trace run = [] /\
  openDialogs (trace run) = [] /\
  callbackCalls (trace run) = [].
Proof. repeat split. Qed.

(** X18.  On every host without a global [name], [openFile] called
    without an initial folder throws the [ReferenceError] before it logs or
    requests anything, whatever the other arguments. *)
Lemma openFile_default_folder_unbound :
  forall (host : Host) (dialogTitle : option string)
         (fileExtensionList : option (list string)) (caller : option Caller),
    globalName host = None ->
    openFile host dialogTitle fileExtensionList None (callbackArg RPath caller)
    = ([], Throws ReferenceError_name).
Proof.
  intros host dialogTitle fileExtensionList caller Hunbound.
  unfold openFile, initialFolderParam, read_name. rewrite Hunbound. reflexivity.
Qed.

(** X19.  Where a global [name] exists, its value is what [app.getPath] is
    asked for, and the answer becomes the initial folder of the one picker
    request. *)
Lemma openFile_default_folder_bound :
  forall (host : Host) (caller : option Caller) (bound folder : string),
    globalName host = Some bound ->
    getPath host bound = Returns folder ->
    openDialogs (trace (openFile host None None None (callbackArg RPath caller)))
    = [openDialogOptions (appName host) [ "*" ] folder].
Proof.
  intros host caller bound folder Hbound Hpath.
  destruct caller; unfold_module; rewrite Hbound; cbn; rewrite Hpath; cbn;
    repeat (split_open; cbn); reflexivity.
Qed.

(** The other two defaults: with only the initial folder passed, the picker
    is titled with the application's name and filters on the wildcard. *)
Lemma openFile_default_title_and_filter :
  forall (host : Host) (folder : string) (caller : option Caller),
    openDialogs (trace (openFile host None None (Some folder)
                                 (callbackArg RPath caller)))
    = [mkOpenDialogOptions (appName host)
         [ "openFile"; "showHiddenFiles"; "treatPackageAsDirectory" ]
         folder [ mkFileFilter "Filter" [ "*" ] ]].
Proof.
  intros host folder caller.
  destruct caller; run_open; reflexivity.
Qed.

(** ** createMessageDialog, beyond the claims *)

Ltac contradict_quiet Hquiet :=
  try match goal with
      | H : throwsOn _ _ _ = Some _ |- _ =>
          rewrite Hquiet in H; discriminate H
      end.

(** X1.  The default chain of [createMessageDialog]: a title left out is the
    application's name, a message left out is the title (so the application's
    name again when both are left out), the buttons default to the single
    "Dismiss" and the type to "info". *)
Theorem createMessageDialog_defaults :
  forall (host : Host) (title message : option string)
         (buttonList : option (list string)) (type : option string)
         (callback : option (Callback MessageBoxReturnValue)),
    exists rest,
      trace (createMessageDialog host title message buttonList type callback)
      = Log Debug "createMessageDialog"
          [LStr "title:"; LStr (orDefault (appName host) title);
           LStr "message:";
           LStr (orDefault (orDefault (appName host) title) message);
           LStr "buttonList:"; LList (orDefault [ "Dismiss" ] buttonList);
           LStr "type:"; LStr (orDefault "info" type)]
        :: ShowMessageBox
             {| type := orDefault "info" type;
                title := orDefault (appName host) title;
                message := orDefault (appName host) title;
                detail := orDefault (orDefault (appName host) title) message;
                buttons := orDefault [ "Dismiss" ] buttonList;
                cancelId := 0;
                defaultId := 0 |}
        :: rest.
Proof.
  intros host title message buttonList type callback.
  unfold createMessageDialog, then_catch, dialog_showMessageBox, log, bind,
    emit, ret, trace, appProductName.
  cbn.
  match goal with
  | |- context [promiseJob ?m] => destruct (promiseJob m) as [t o]
  end.
  cbn. eexists. reflexivity.
Qed.

(** ** The four message dialogs, beyond the claims *)

(** X2.  When the host rejects the message box an operation requests with
    [e], each of the four operations has [createMessageDialog] log [e] at
    error level and then hands [e], and nothing else, to the caller's
    callback; nothing is relaunched or quit. *)
Theorem message_dialog_rejection_reaches_callback :
  forall (host : Host) (op : MessageOperation) (c : Caller) (e : Error),
    showMessageBoxAnswer host (requestOf host op) = Rejected e ->
    let t := trace (perform host op (callbackArg RBox (Some c))) in
    (exists again,
       callbackCalls t = (Some e, None) :: again /\
       (throwsOn c (Some e) None = None -> again = [])) /\
    hd_error (loggedErrors t) = Some ("createMessageDialog", e) /\
    restrict [isAppRelaunch; isAppQuit] t = [].
Proof.
  intros host op c e Hanswer t. subst t.
  destruct op; run_with_premises.
  all: repeat split; try (eexists; split; [reflexivity | intros; congruence]).
Qed.

Lemma message_dialog_rejection_reaches_callback_witness :
  hd_error (loggedErrors
    (trace (perform (failingHost ENOENT false) (ShowWarning (Some "careful"))
                    (callbackArg RBox (Some quietCaller)))))
  = Some ("createMessageDialog", ENOENT).
Proof.
  apply (message_dialog_rejection_reaches_callback (failingHost ENOENT false)
           (ShowWarning (Some "careful")) quietCaller ENOENT).
  reflexivity.
Defined.

(** X3.  When the host resolves the message box an operation requests with
    [r], the first thing the caller's callback receives from any of the four
    operations is [null] and [r] itself, whatever its index and checkbox
    state. *)
Theorem message_dialog_result_passed_through :
  forall (host : Host) (op : MessageOperation) (c : Caller)
         (r : MessageBoxReturnValue),
    showMessageBoxAnswer host (requestOf host op) = Resolved r ->
    let t := trace (perform host op (callbackArg RBox (Some c))) in
    hd_error (callbackCalls t) = Some (None, Some (RBox r)).
Proof.
  intros host op c r Hanswer t. subst t.
  destruct op; run_with_premises; reflexivity.
Qed.

Lemma message_dialog_result_passed_through_witness :
  hd_error (callbackCalls
    (trace (perform (mainProcessHost 1 [] (fun _ => None))
                    (ShowConfirmation (Some "Sure?") None)
                    (callbackArg RBox (Some quietCaller)))))
  = Some (None, Some (RBox (mkMessageBoxReturnValue 1 false))).
Proof.
  apply (message_dialog_result_passed_through
           (mainProcessHost 1 [] (fun _ => None))
           (ShowConfirmation (Some "Sure?") None) quietCaller
           (mkMessageBoxReturnValue 1 false)).
  reflexivity.
Defined.

(** X4.  Each of the four operations invokes the caller's callback at least
    once and at most twice, and exactly once when the callback returns. *)
Theorem message_dialog_callback_count :
  forall (host : Host) (op : MessageOperation) (c : Caller),
    let calls := callbackCalls (trace (perform host op (callbackArg RBox (Some c)))) in
    (1 <= length calls <= 2)%nat /\
    (returnsAlways c -> length calls = 1%nat).
Proof.
  intros host op c calls. subst calls. split.
  - destruct op; unfold perform; run; cbn; lia.
  - intros Hquiet.
    destruct op; unfold perform; run; contradict_quiet Hquiet; reflexivity.
Qed.

Lemma quietCaller_returnsAlways : returnsAlways quietCaller.
Proof. intros error result. reflexivity. Qed.

Lemma message_dialog_callback_count_witness :
  length (callbackCalls
    (trace (perform (mainProcessHost 0 [] (fun _ => None))
                    (ShowInformation None None)
                    (callbackArg RBox (Some quietCaller)))))
  = 1%nat.
Proof.
  apply (message_dialog_callback_count (mainProcessHost 0 [] (fun _ => None))
           (ShowInformation None None) quietCaller).
  apply quietCaller_returnsAlways.
Defined.

(** X5.  When the host resolves the requested message box with [r] and the
    callback throws [thrown] on being handed [r], the callback is invoked a
    second time, by the rejection handler of the same chain, with [thrown] as
    its error; [createMessageDialog] logs [thrown] as if the dialog had
    failed.  If the second invocation throws too, the chain ends in an
    unhandled rejection. *)
Theorem message_dialog_throwing_callback_invoked_again :
  forall (host : Host) (op : MessageOperation) (c : Caller)
         (r : MessageBoxReturnValue) (thrown : Error),
    showMessageBoxAnswer host (requestOf host op) = Resolved r ->
    throwsOn c None (Some (RBox r)) = Some thrown ->
    let t := trace (perform host op (callbackArg RBox (Some c))) in
    callbackCalls t = [(None, Some (RBox r)); (Some thrown, None)] /\
    In ("createMessageDialog", thrown) (loggedErrors t) /\
    (forall again, throwsOn c (Some thrown) None = Some again ->
                   escaped t = [UnhandledRejection again]) /\
    (throwsOn c (Some thrown) None = None -> escaped t = []).
Proof.
  intros host op c r thrown Hanswer Hthrows t. subst t.
  destruct op; run_with_premises.
  all: repeat split; cbn; auto; intros; congruence.
Qed.

Lemma message_dialog_throwing_callback_invoked_again_witness :
  callbackCalls
    (trace (perform (mainProcessHost 0 [] (fun _ => None))
                    (ShowInformation (Some "Update") None)
                    (callbackArg RBox (Some (throwingCaller ENOENT)))))
  = [(None, Some (RBox (mkMessageBoxReturnValue 0 false))); (Some ENOENT, None)].
Proof.
  apply (message_dialog_throwing_callback_invoked_again
           (mainProcessHost 0 [] (fun _ => None))
           (ShowInformation (Some "Update") None) (throwingCaller ENOENT)
           (mkMessageBoxReturnValue 0 false) ENOENT).
  - reflexivity.
  - reflexivity.
Defined.

(** X6.  None of the four operations invokes the caller's callback before
    the host has settled the message box: up to and including the request
    nothing has been handed to the caller, and every invocation follows the
    settlement. *)
Theorem message_dialog_callback_waits_for_host :
  forall (host : Host) (op : MessageOperation) (c : Caller),
    let t := trace (perform host op (callbackArg RBox (Some c))) in
    exists before req s after,
      t = before ++ ShowMessageBox req :: MessageBoxSettled s :: after /\
      callbackCalls before = [] /\
      messageBoxes after = [] /\
      callbackCalls after = callbackCalls t.
Proof.
  intros host op c t. subst t.
  destruct op as [ttl msg | msg | ttl msg | msg];
    unfold perform; unfold_module; cbn.
  all: match goal with
       | |- context [showMessageBoxAnswer ?h ?q] =>
           remember (showMessageBoxAnswer h q) as answer eqn:Hanswer
       end.
  - exists [Log Debug "showInformation" []; Log Debug "createMessageDialog"
              [LStr "title:"; LStr (orDefault (appName host) ttl);
               LStr "message:";
               LStr (orDefault (orDefault (appName host) ttl) msg);
               LStr "buttonList:"; LList ["Dismiss"]; LStr "type:"; LStr "info"]].
    do 2 eexists.
    destruct answer; cbn; repeat (split_stuck; cbn);
      eexists; repeat split; reflexivity.
  - exists [Log Debug "showWarning" []; Log Debug "createMessageDialog"
              [LStr "title:"; LStr "Warning"; LStr "message:";
               LStr (orDefault "Warning" msg);
               LStr "buttonList:"; LList ["Dismiss"]; LStr "type:";
               LStr "warning"]].
    do 2 eexists.
    destruct answer; cbn; repeat (split_stuck; cbn);
      eexists; repeat split; reflexivity.
  - exists [Log Debug "showConfirmation" []; AppFocus;
            Log Debug "createMessageDialog"
              [LStr "title:"; LStr (orDefault (appName host) ttl);
               LStr "message:";
               LStr (orDefault (orDefault (appName host) ttl) msg);
               LStr "buttonList:"; LList ["No"; "Yes"]; LStr "type:";
               LStr "question"]].
    do 2 eexists.
    destruct answer; cbn; repeat (split_stuck; cbn);
      eexists; repeat split; reflexivity.
  - exists (Log Debug "showError" []
            :: (if isMacOS host then [DockBounce "critical"] else [])
            ++ [AppFocus;
                Log Debug "createMessageDialog"
                  [LStr "title:"; LStr "Error"; LStr "message:";
                   LStr (orDefault "Error" msg);
                   LStr "buttonList:"; LList ["Dismiss"; "Restart"; "Quit"];
                   LStr "type:"; LStr "error"]]).
    do 2 eexists.
    destruct answer; cbn; repeat (split_stuck; cbn);
      eexists; repeat split; reflexivity.
Qed.

(** X7.  The four operations always return to their caller: neither a
    rejected dialog nor a throwing callback makes the call itself throw. *)
Theorem message_dialog_never_throws :
  forall (host : Host) (op : MessageOperation) (caller : option Caller),
    outcome (perform host op (callbackArg RBox caller)) = Returns tt.
Proof.
  intros host op caller.
  destruct op, caller; unfold perform; run; reflexivity.
Qed.

(** X8.  [showInformation] and [showWarning] do nothing to the application:
    no dock bounce, no focus, no relaunch, no quit.  [showConfirmation] only
    asks for the focus, once; whichever button answers it, "Yes" included,
    nothing is relaunched or quit. *)
Theorem plain_dialogs_leave_application_alone :
  forall (host : Host) (title message : option string) (caller : option Caller),
    restrict appActions
      (trace (showInformation host title message (callbackArg RBox caller))) = [] /\
    restrict appActions
      (trace (showWarning host message (callbackArg RBox caller))) = [] /\
    restrict appActions
      (trace (showConfirmation host title message (callbackArg RBox caller)))
    = [AppFocus].
Proof.
  intros host title message caller.
  repeat split; destruct caller; run; reflexivity.
Qed.

(** ** showError, beyond the claims *)

(** X9.  [showError] bounces the dock icon, with kind "critical", exactly on
    macOS; it does so before it asks for the focus, and it asks for the focus
    before it requests the dialog. *)
Theorem showError_bounce_focus_dialog :
  forall (host : Host) (message : option string) (caller : option Caller),
    exists req,
      restrict [isDockBounce; isAppFocus; isShowMessageBox]
        (trace (showError host message (callbackArg RBox caller)))
      = (if isMacOS host then [DockBounce "critical"] else [])
        ++ [AppFocus; ShowMessageBox req] /\
      type req = "error" /\
      title req = "Error" /\
      buttons req = [ "Dismiss"; "Restart"; "Quit" ].
Proof.
  intros host message caller.
  destruct caller; run; eexists; repeat split.
Qed.

(** X10.  When the host rejects the error dialog [showError] requests with
    [e], nothing is relaunched or quit; [e] is logged by
    [createMessageDialog] and then by [showError], and the caller's callback
    receives [e] alone. *)
Theorem showError_rejection :
  forall (host : Host) (message : option string) (c : Caller) (e : Error),
    showMessageBoxAnswer host (requestOf host (ShowError message)) = Rejected e ->
    let t := trace (showError host message (callbackArg RBox (Some c))) in
    occurrences isAppRelaunch t = 0%nat /\
    occurrences isAppQuit t = 0%nat /\
    loggedErrors t = [("createMessageDialog", e); ("showError", e)] /\
    hd_error (callbackCalls t) = Some (Some e, None).
Proof.
  intros host message c e Hanswer t. subst t.
  run_with_premises; repeat split.
Qed.

Lemma showError_rejection_witness :
  loggedErrors
    (trace (showError (failingHost ENOENT true) (Some "boom")
                      (callbackArg RBox (Some quietCaller))))
  = [("createMessageDialog", ENOENT); ("showError", ENOENT)].
Proof.
  apply (showError_rejection (failingHost ENOENT true) (Some "boom")
           quietCaller ENOENT).
  reflexivity.
Defined.

(** X11.  Only the indices 1 and 2 act on the application: when the host
    resolves the error dialog [showError] requests with any other index,
    negative or beyond the three buttons included, nothing is relaunched or
    quit and the callback receives the result as it is. *)
Theorem showError_other_index_is_dismiss :
  forall (host : Host) (message : option string) (c : Caller)
         (r : MessageBoxReturnValue),
    showMessageBoxAnswer host (requestOf host (ShowError message)) = Resolved r ->
    response r <> 1 ->
    response r <> 2 ->
    let t := trace (showError host message (callbackArg RBox (Some c))) in
    restrict [isAppRelaunch; isAppQuit] t = [] /\
    hd_error (callbackCalls t) = Some (None, Some (RBox r)).
Proof.
  intros host message c r Hanswer Hnot1 Hnot2 t. subst t.
  run_with_premises.
  all: try lia.
  all: split; reflexivity.
Qed.

Lemma showError_other_index_is_dismiss_witness :
  restrict [isAppRelaunch; isAppQuit]
    (trace (showError offListHost None (callbackArg RBox (Some quietCaller))))
  = [] /\
  hd_error (callbackCalls
    (trace (showError offListHost None (callbackArg RBox (Some quietCaller)))))
  = Some (None, Some (RBox (mkMessageBoxReturnValue (-1) true))).
Proof.
  apply (showError_other_index_is_dismiss offListHost None quietCaller
           (mkMessageBoxReturnValue (-1) true)).
  - reflexivity.
  - discriminate.
  - discriminate.
Defined.

(** ** checkFileExists *)

(** X12.  On a path without a NUL byte [checkFileExists] probes the path
    once, with mode [F_OK], and runs its callback once on exactly what the
    probe answered, after logging the error when there is one; what the
    callback throws ends as an uncaught exception and [checkFileExists]
    itself returns.  On a path with a NUL byte [fs.access] throws at once:
    [checkFileExists] throws that error to its caller and its callback never
    runs. *)
Theorem checkFileExists_reports_probe :
  forall (host : Host) (filePath : string) (callback : option Error -> M unit),
    let answer := accessAnswer host filePath in
    let run := checkFileExists host filePath (Some callback) in
    (hasNullByte filePath = false ->
     exists before after,
       trace run = before ++ trace (callback answer) ++ after /\
       before = [Log Debug "checkFileExists" []; FsAccess filePath F_OK;
                 FsAccessDone answer]
                ++ match answer with
                   | Some e => [Log Err "checkFileExists" [LError e]]
                   | None => []
                   end /\
       after = match outcome (callback answer) with
               | Throws thrown => [UncaughtException thrown]
               | Returns _ => []
               end /\
       outcome run = Returns tt) /\
    (hasNullByte filePath = true ->
     run = ([Log Debug "checkFileExists" []; FsAccess filePath F_OK],
            Throws ERR_INVALID_ARG_VALUE)).
Proof.
  intros host filePath callback answer run. subst answer run.
  unfold checkFileExists, fs_access, log, orDefault. cbn. split.
  - intros Hvalid. rewrite Hvalid. cbn.
    destruct (accessAnswer host filePath) as [e|]; cbn;
      [destruct (callback (Some e)) as [t [[]|thrown]]
      |destruct (callback None) as [t [[]|thrown]]]; cbn.
    all: do 2 eexists; split; [|split; [reflexivity|split; reflexivity]].
    all: cbn; rewrite ?app_nil_r; reflexivity.
  - intros Hnul. rewrite Hnul. reflexivity.
Qed.

Lemma checkFileExists_reports_probe_witness :
  checkFileExists (mainProcessHost 0 [] (fun _ => None))
    (String zero "a.txt") (Some (fun _ => ret tt))
  = ([Log Debug "checkFileExists" [];
      FsAccess (String zero "a.txt") F_OK],
     Throws ERR_INVALID_ARG_VALUE).
Proof.
  apply (checkFileExists_reports_probe (mainProcessHost 0 [] (fun _ => None))
           (String zero "a.txt") (fun _ => ret tt)).
  reflexivity.
Defined.

(** ** openFile, beyond the claims *)



(** X14.  Whenever [openFile] returns instead of throwing, a callback that
    itself returns is invoked exactly once, on every path through the
    function: picker rejected, nothing picked, file missing, file found. *)
Theorem openFile_callback_exactly_once :
  forall (host : Host) (dialogTitle : option string)
         (fileExtensionList : option (list string))
         (initialFolder : option string) (c : Caller),
    let run := openFile host dialogTitle fileExtensionList initialFolder
                        (callbackArg RPath (Some c)) in
    outcome run = Returns tt ->
    returnsAlways c ->
    length (callbackCalls (trace run)) = 1%nat.
Proof.
  intros host dialogTitle fileExtensionList initialFolder c run Hreturns Hquiet.
  subst run. revert Hreturns.
  destruct initialFolder as [folder|]; run_open; intros Hreturns;
    contradict_quiet Hquiet; try discriminate Hreturns; reflexivity.
Qed.

Lemma openFile_callback_exactly_once_witness :
  length (callbackCalls
    (trace (openFile (mainProcessHost 0 ["/tmp/gone.txt"] (fun _ => Some ENOENT))
                     None None (Some "/tmp")
                     (callbackArg RPath (Some quietCaller)))))
  = 1%nat.
Proof.
  apply (openFile_callback_exactly_once
           (mainProcessHost 0 ["/tmp/gone.txt"] (fun _ => Some ENOENT))
           None None (Some "/tmp") quietCaller).
  - reflexivity.
  - apply quietCaller_returnsAlways.
Defined.

(** X15.  [openFile] probes at most one path and always with mode [F_OK];
    it requests at most one message box, and requests one only after a probe
    has failed. *)
Theorem openFile_probe_and_warning_bounds :
  forall (host : Host) (dialogTitle : option string)
         (fileExtensionList : option (list string))
         (initialFolder : option string) (caller : option Caller),
    let t := trace (openFile host dialogTitle fileExtensionList initialFolder
                             (callbackArg RPath caller)) in
    (length (probes t) <= 1)%nat /\
    Forall (fun mode => mode = F_OK) (probeModes t) /\
    (length (messageBoxes t) <= 1)%nat /\
    (messageBoxes t <> [] -> exists e, In (FsAccessDone (Some e)) t).
Proof.
  intros host dialogTitle fileExtensionList initialFolder caller t. subst t.
  destruct initialFolder as [folder|], caller as [c|]; run_open.
  all: split; [cbn; lia | split; [repeat constructor | split; [cbn; lia |]]].
  all: intros Hshown.
  all: first [ exfalso; apply Hshown; reflexivity
             | eexists; cbn; repeat (first [left; reflexivity | right]) ].
Qed.

(** X16.  [openFile] never acts on the application: no dock bounce, no
    focus, no relaunch, no quit, whatever the host answers. *)
Theorem openFile_leaves_application_alone :
  forall (host : Host) (dialogTitle : option string)
         (fileExtensionList : option (list string))
         (initialFolder : option string) (caller : option Caller),
    restrict appActions
      (trace (openFile host dialogTitle fileExtensionList initialFolder
                       (callbackArg RPath caller)))
    = [].
Proof.
  intros host dialogTitle fileExtensionList initialFolder caller.
  destruct initialFolder as [folder|], caller as [c|]; run_open; reflexivity.
Qed.

(** X17.  The picker request carries the arguments as they came: the title
    (the application's name when left out), the extension list (the wildcard
    when left out) under the one filter "Filter", the initial folder as the
    default path, and always the same three properties. *)
Theorem openFile_request_passes_arguments :
  forall (host : Host) (dialogTitle : option string)
         (fileExtensionList : option (list string)) (folder : string)
         (caller : option Caller),
    openDialogs (trace (openFile host dialogTitle fileExtensionList (Some folder)
                                 (callbackArg RPath caller)))
    = [ {| openTitle := orDefault (appName host) dialogTitle;
           properties := [ "openFile"; "showHiddenFiles";
                           "treatPackageAsDirectory" ];
           defaultPath := folder;
           filters := [ {| name := "Filter";
                           extensions := orDefault [ "*" ] fileExtensionList |} ]
        |} ].
Proof.
  intros host dialogTitle fileExtensionList folder caller.
  destruct caller; run_open; reflexivity.
Qed.

Lemma openFile_default_folder_unbound_witness :
  openFile (mainProcessHost 0 [] (fun _ => None)) (Some "Pick") (Some ["txt"])
           None (callbackArg RPath None)
  = ([], Throws ReferenceError_name).
Proof.
  apply (openFile_default_folder_unbound (mainProcessHost 0 [] (fun _ => None))
           (Some "Pick") (Some ["txt"]) None).
  reflexivity.
Defined.

Lemma openFile_default_folder_bound_witness :
  openDialogs (trace (openFile (rendererLikeHost "home") None None None
                               (callbackArg RPath (Some quietCaller))))
  = [openDialogOptions "MyApp" [ "*" ] "/home/me"].
Proof.
  apply (openFile_default_folder_bound (rendererLikeHost "home")
           (Some quietCaller) "home" "/home/me").
  - reflexivity.
  - reflexivity.
Defined.

(** X20.  When the initial folder is left out and [app.getPath] throws on the
    value bound to [name], [openFile] throws that error to its caller before
    it logs or requests anything; the callback never runs. *)
Theorem openFile_default_folder_getPath_throws :
  forall (host : Host) (dialogTitle : option string)
         (fileExtensionList : option (list string)) (caller : option Caller)
         (bound : string) (e : Error),
    globalName host = Some bound ->
    getPath host bound = Throws e ->
    openFile host dialogTitle fileExtensionList None (callbackArg RPath caller)
    = ([], Throws e).
Proof.
  intros host dialogTitle fileExtensionList caller bound e Hbound Hpath.
  unfold openFile, initialFolderParam, read_name, app_getPath.
  rewrite Hbound. cbn. rewrite Hpath. reflexivity.
Qed.

Lemma openFile_default_folder_getPath_throws_witness :
  openFile (rendererLikeHost "nowhere") None None None
           (callbackArg RPath (Some quietCaller))
  = ([], Throws (mkError "Error" "Failed to get path")).
Proof.
  apply (openFile_default_folder_getPath_throws (rendererLikeHost "nowhere")
           None None (Some quietCaller) "nowhere").
  - reflexivity.
  - reflexivity.
Defined.

(** X21.  On the success path the callback runs from the [fs.access]
    callback, outside the promise chain: when it throws there, [openFile]'s
    rejection handler does not see it, the callback is not invoked again,
    nothing is logged as an error, and the exception ends uncaught. *)
Theorem openFile_success_callback_throw_is_uncaught :
  forall (host : Host) (dialogTitle : option string)
         (fileExtensionList : option (list string))
         (initialFolder : option string) (c : Caller)
         (filePath : string) (thrown : Error),
    let t := trace (openFile host dialogTitle fileExtensionList initialFolder
                             (callbackArg RPath (Some c))) in
    In (CallbackInvoked None (Some (RPath filePath))) t ->
    throwsOn c None (Some (RPath filePath)) = Some thrown ->
    callbackCalls t = [(None, Some (RPath filePath))] /\
    escaped t = [UncaughtException thrown] /\
    loggedErrors t = [].
Proof.
  intros host dialogTitle fileExtensionList initialFolder c filePath thrown
         t Hin Hthrows.
  subst t. revert Hin.
  destruct initialFolder as [folder|]; run_open; intros Hin; scan Hin.
  all: injection Hin as <-.
  all: try congruence.
  all: repeat split; congruence.
Qed.

Lemma openFile_success_callback_throw_is_uncaught_witness :
  escaped
    (trace (openFile (mainProcessHost 0 ["/tmp/a.txt"] (fun _ => None))
                     None None (Some "/tmp")
                     (callbackArg RPath (Some (throwingCaller ENOENT)))))
  = [UncaughtException ENOENT].
Proof.
  apply (openFile_success_callback_throw_is_uncaught
           (mainProcessHost 0 ["/tmp/a.txt"] (fun _ => None))
           None None (Some "/tmp") (throwingCaller ENOENT) "/tmp/a.txt" ENOENT).
  - simpl. tauto.
  - reflexivity.
Defined.

(** X22.  When the picker resolves with no path, the callback runs inside
    the promise chain: when it throws [thrown] there, [openFile]'s rejection
    handler logs [thrown] as an error of [openFile] and invokes the callback
    a second time, with [thrown]. *)
Theorem openFile_empty_selection_callback_throw :
  forall (host : Host) (dialogTitle : option string)
         (fileExtensionList : option (list string))
         (initialFolder : option string) (folder : string) (c : Caller)
         (picked : OpenDialogReturnValue) (thrown : Error),
    folderOf host initialFolder folder ->
    showOpenDialogAnswer host
      (pickerRequest host dialogTitle fileExtensionList folder) = Resolved picked ->
    filePaths picked = [] ->
    throwsOn c (Some emptySelectionError) None = Some thrown ->
    let t := trace (openFile host dialogTitle fileExtensionList initialFolder
                             (callbackArg RPath (Some c))) in
    callbackCalls t = [(Some emptySelectionError, None); (Some thrown, None)] /\
    loggedErrors t = [("openFile", thrown)].
Proof.
  intros host dialogTitle fileExtensionList initialFolder folder c picked thrown
         Hfolder Hpicker Hempty Hthrows t.
  subst t. unfold emptySelectionError in *.
  destruct picked as [cancelled paths]. cbn in Hempty. subst paths.
  split_folder Hfolder; run_with_premises.
  all: split; reflexivity.
Qed.

Lemma openFile_empty_selection_callback_throw_witness :
  callbackCalls
    (trace (openFile (mainProcessHost 0 [] (fun _ => None)) None None
                     (Some "/tmp")
                     (callbackArg RPath (Some (throwingCaller ENOENT)))))
  = [(Some emptySelectionError, None); (Some ENOENT, None)] /\
  loggedErrors
    (trace (openFile (mainProcessHost 0 [] (fun _ => None)) None None
                     (Some "/tmp")
                     (callbackArg RPath (Some (throwingCaller ENOENT)))))
  = [("openFile", ENOENT)].
Proof.
  apply (openFile_empty_selection_callback_throw
           (mainProcessHost 0 [] (fun _ => None)) None None (Some "/tmp") "/tmp"
           (throwingCaller ENOENT) (mkOpenDialogReturnValue true []) ENOENT).
  - left. reflexivity.
  - reflexivity.
  - reflexivity.
  - reflexivity.
Defined.

(** X23.  When the probe calls back with [e] and the host then rejects the
    warning dialog with [d], the caller never learns of [d]: it is logged by
    [createMessageDialog] and dropped, and the callback is invoked once, with
    [e], also when it throws. *)
Theorem openFile_warning_failure_is_dropped :
  forall (host : Host) (dialogTitle : option string)
         (fileExtensionList : option (list string))
         (initialFolder : option string) (folder : string) (c : Caller)
         (picked : OpenDialogReturnValue) (first : string) (others : list string)
         (e d : Error),
    folderOf host initialFolder folder ->
    showOpenDialogAnswer host
      (pickerRequest host dialogTitle fileExtensionList folder) = Resolved picked ->
    filePaths picked = first :: others ->
    hasNullByte (normalize host first) = false ->
    accessAnswer host (normalize host first) = Some e ->
    showMessageBoxAnswer host (warningRequest host) = Rejected d ->
    let t := trace (openFile host dialogTitle fileExtensionList initialFolder
                             (callbackArg RPath (Some c))) in
    callbackCalls t = [(Some e, None)] /\
    loggedErrors t = [("checkFileExists", e); ("createMessageDialog", d)].
Proof.
  intros host dialogTitle fileExtensionList initialFolder folder c picked first
         others e d Hfolder Hpicker Hpaths Hvalid Hprobe Hwarning t.
  subst t. destruct picked as [cancelled paths]. cbn in Hpaths. subst paths.
  split_folder Hfolder; run_with_premises.
  all: split; reflexivity.
Qed.

Lemma openFile_warning_failure_is_dropped_witness :
  callbackCalls
    (trace (openFile (mainProcessHost (-1) ["/tmp/gone.txt"] (fun _ => Some ENOENT))
                     None None (Some "/tmp")
                     (callbackArg RPath (Some quietCaller))))
  = [(Some ENOENT, None)] /\
  loggedErrors
    (trace (openFile (mainProcessHost (-1) ["/tmp/gone.txt"] (fun _ => Some ENOENT))
                     None None (Some "/tmp")
                     (callbackArg RPath (Some quietCaller))))
  = [("checkFileExists", ENOENT);
     ("createMessageDialog", mkError "Error" "no such button")].
Proof.
  apply (openFile_warning_failure_is_dropped
           (mainProcessHost (-1) ["/tmp/gone.txt"] (fun _ => Some ENOENT))
           None None (Some "/tmp") "/tmp" quietCaller
           (mkOpenDialogReturnValue false ["/tmp/gone.txt"])
           "/tmp/gone.txt" [] ENOENT (mkError "Error" "no such button")).
  - left. reflexivity.
  - reflexivity.
  - reflexivity.
  - reflexivity.
  - reflexivity.
  - reflexivity.
Defined.


